(** * LinearModel: a shallow embedding of [linear_model.py]

    The Python class [LinearModel] keeps a slope [m], an intercept [b] and a
    [history] list, all computed with Python floats.  A Python float is an
    IEEE 754 binary64 number, and so is Rocq's primitive [float]: [+], [-],
    [*], [/] and [sqrt] below are the kernel's correctly rounded operations,
    which is what CPython executes.  Exceptions are values of [exn]; a method
    is a function from the object's state to an outcome and the state after
    the call. *)

From Stdlib Require Import ZArith List String Ascii Bool Lia Floats DecimalString.
From Stdlib Require Uint63.
Import ListNotations.

#[local] Set Warnings "-inexact-float".
#[local] Open Scope float_scope.

(** ** Exceptions and outcomes *)

Inductive exn : Set :=
| ZeroDivisionError
| OverflowError
| ValueError.

Inductive result (A : Type) : Type :=
| Ok (a : A)
| Raise (e : exn).

Arguments Ok {A} a.
Arguments Raise {A} e.

Definition returns {A : Type} (r : result A) : bool :=
  match r with Ok _ => true | Raise _ => false end.

(** ** Python's float operations used by the class *)

Module Py.

(** [bool(f)] for a float: [f != 0.0].  Both zeros are falsy, NaN is truthy. *)
Definition truthy (f : float) : bool := negb (f =? 0).

(** [v or d] where [v] is [None] or a float: the right operand is only
    evaluated (by the caller) when this returns [None]. *)
Definition falsy_to_none (v : option float) : option float :=
  match v with
  | Some f => if truthy f then Some f else None
  | None => None
  end.

(** [x ** 2] for a float [x] (CPython's [float_pow] with exponent 2.0):
    NaN is returned as it is, an infinity gives [+inf], and a finite [x]
    gives C's [pow(|x|, 2.0)], here the correctly rounded square; when that
    result is infinite, errno is ERANGE and OverflowError is raised.
    An underflow to zero is returned silently.  A C library may return the
    float next to the correctly rounded square: what is stated about [loss]
    below names its sign, its special values and when it raises, not the
    last digit of a finite square. *)
Definition pow2 (x : float) : result float :=
  if is_nan x then Ok x
  else if is_infinity x then Ok infinity
  else
    let r := abs x * abs x in
    if is_infinity r then Raise OverflowError else Ok r.

(** [math.sqrt(x)]: the C square root; a NaN result from a non-NaN
    argument (a negative argument) is a domain error. *)
Definition math_sqrt (x : float) : result float :=
  let r := sqrt x in
  if is_nan r && negb (is_nan x) then Raise ValueError else Ok r.

(** [float(n)] for a non-negative int: the nearest float, ties to even. *)
Definition float_of_int (n : Z) : float :=
  SF2Prim (binary_normalize prec emax n 0%Z false).

(** [a / n] for a float [a] and an int [n] (here always a [len]). *)
Definition truediv_int (a : float) (n : nat) : result float :=
  match n with
  | O => Raise ZeroDivisionError
  | S _ => Ok (a / float_of_int (Z.of_nat n))
  end.

(** [sum(l)]: starts from the int 0 and adds the items from left to right. *)
Definition sum (l : list float) : float := fold_left add l 0.

(** ['{:.3f}'.format(f)].  A finite float is [mant * 2^e] exactly; the
    result is that value rounded to a multiple of 1/1000 (ties to even on
    the exact value), printed with its sign bit. *)
Definition div_half_even (p q : Z) : Z :=
  let d := (p / q)%Z in
  let r := (p mod q)%Z in
  match (2 * r ?= q)%Z with
  | Lt => d
  | Gt => (d + 1)%Z
  | Eq => if Z.even d then d else (d + 1)%Z
  end.

Definition thousandths (mant : positive) (e : Z) : Z :=
  match e with
  | Zneg k => div_half_even (Zpos mant * 1000) (2 ^ Zpos k)
  | _ => (Zpos mant * 1000 * 2 ^ e)%Z
  end.

Definition digits (n : Z) : string :=
  NilZero.string_of_uint (N.to_uint (Z.to_N n)).

Definition pad3 (n : Z) : string :=
  let s := digits n in
  match String.length s with
  | 1%nat => "00" ++ s
  | 2%nat => "0" ++ s
  | _ => s
  end%string.

Definition sign_str (s : bool) : string := if s then "-"%string else ""%string.

Definition format_3f (f : float) : string :=
  match Prim2SF f with
  | S754_nan => "nan"
  | S754_infinity s => sign_str s ++ "inf"
  | S754_zero s => sign_str s ++ "0.000"
  | S754_finite s mant e =>
      let n := thousandths mant e in
      sign_str s ++ digits (n / 1000) ++ "." ++ pad3 (n mod 1000)
  end%string.

End Py.

(** ** The object state *)

(** One entry of [history]: the dict built by [update_history]. *)
Record TrainingRecord : Type := {
  rec_m : float;
  rec_b : float;
  observation : float * float;
  prediction : float;
  rec_error : float;
  rec_loss : float;
  epoch : Z;
  message : option string
}.

Record LinearModel : Type := {
  m : float;
  b : float;
  history : list TrainingRecord
}.

(** ** Methods: state and exception passing *)

Definition M (A : Type) : Type := LinearModel -> result A * LinearModel.

Definition ret {A : Type} (a : A) : M A := fun self => (Ok a, self).

Definition bind {A B : Type} (c : M A) (k : A -> M B) : M B :=
  fun self =>
    match c self with
    | (Ok a, self') => k a self'
    | (Raise e, self') => (Raise e, self')
    end.

Definition lift {A : Type} (r : result A) : M A := fun self => (r, self).

Definition get : M LinearModel := fun self => (Ok self, self).

Definition put (self' : LinearModel) : M unit := fun _ => (Ok tt, self').

Declare Scope py_scope.
Delimit Scope py_scope with py.
Notation "x <- c ;; k" := (bind c (fun x => k))
  (at level 61, c at next level, right associativity) : py_scope.
Notation "c ;;; k" := (bind c (fun _ => k))
  (at level 61, right associativity) : py_scope.
#[local] Open Scope py_scope.

Fixpoint for_each {A B : Type} (f : A -> M B) (l : list A) : M (list B) :=
  match l with
  | [] => ret []
  | a :: l' => v <- f a ;; vs <- for_each f l' ;; ret (v :: vs)
  end.

(** [return self.m*x + self.b] *)
Definition predict (x : float) : M float :=
  self <- get ;; ret (m self * x + b self).

(** [return self.predict(x) - y] *)
Definition error (x y : float) : M float :=
  p <- predict x ;; ret (p - y).

(** [return x * self.error(x,y), self.error(x,y)] *)
Definition gradient (x y : float) : M (float * float) :=
  e1 <- error x y ;; e2 <- error x y ;; ret (x * e1, e2).

(** [return self.error(x, y)**2] *)
Definition loss (x y : float) : M float :=
  e <- error x y ;; lift (Py.pow2 e).

(** [return math.sqrt(sum(list(self.loss(x,y) for x,y in zip(xlist, ylist)))) / len(xlist)] *)
Definition rmse (xlist ylist : list float) : M float :=
  ls <- for_each (fun xy => loss (fst xy) (snd xy)) (combine xlist ylist) ;;
  r <- lift (Py.math_sqrt (Py.sum ls)) ;;
  lift (Py.truediv_int r (List.length xlist)).

(** [self.m += m_step; self.b += b_step] *)
Definition step (m_step b_step : float) : M unit :=
  self <- get ;;
  put {| m := m self + m_step; b := b self; history := history self |} ;;;
  self <- get ;;
  put {| m := m self; b := b self + b_step; history := history self |}.

(** [self.history.append({'m': self.m, ..., 'message': message})] *)
Definition update_history (x y : float) (epoch : Z) (message : option string)
  : M unit :=
  self <- get ;;
  p <- predict x ;;
  e <- error x y ;;
  l <- loss x y ;;
  self' <- get ;;
  put {| m := m self'; b := b self';
         history := history self' ++
           [ {| rec_m := m self; rec_b := b self; observation := (x, y);
                prediction := p; rec_error := e; rec_loss := l;
                epoch := epoch; message := message |} ] |}.

(** [return 'y = {:.3f}x + {:.3f}'.format(self.m, self.b)] *)
Definition __str__ : M string :=
  self <- get ;;
  ret ("y = " ++ Py.format_3f (m self) ++ "x + " ++ Py.format_3f (b self))%string.

(** ** Construction *)

Section Construction.

(** The state of Python's [random] module, and [random.random()]: the next
    float of the generator together with the generator's new state. *)
Variable rng : Type.
Variable random_random : rng -> float * rng.

(** [v or random.random()]: the generator is asked only when [v] is
    [None] or falsy. *)
Definition or_random (v : option float) (g : rng) : float * rng :=
  match Py.falsy_to_none v with
  | Some f => (f, g)
  | None => random_random g
  end.

(** [self.m = m or random.random(); self.b = b or random.random();
    self.history = []] *)
Definition __init__ (m b : option float) (g : rng) : LinearModel * rng :=
  let (m', g1) := or_random m g in
  let (b', g2) := or_random b g1 in
  ({| m := m'; b := b'; history := [] |}, g2).

End Construction.

(** ** Definitions used to state the properties *)

(** The value a call returns, and the state it leaves. *)
Definition value_of {A : Type} (c : M A) (self : LinearModel) : result A :=
  fst (c self).

Definition state_after {A : Type} (c : M A) (self : LinearModel) : LinearModel :=
  snd (c self).

(** A float that is not below zero: zero, positive, [+inf] or NaN. *)
Definition not_negative (f : float) : bool := negb (f <? 0).

(** The first exception of a list of outcomes, or all the values. *)
Fixpoint all_ok {A : Type} (l : list (result A)) : result (list A) :=
  match l with
  | [] => Ok []
  | Ok a :: l' =>
      match all_ok l' with
      | Ok vs => Ok (a :: vs)
      | Raise e => Raise e
      end
  | Raise e :: _ => Raise e
  end.

(** [loss(x_i, y_i)] for the positions [i = 0 .. n-1]. *)
Definition losses_by_index (self : LinearModel) (xs ys : list float) (n : nat)
  : list (result float) :=
  map (fun i => value_of (loss (nth i xs 0) (nth i ys 0)) self) (seq 0 n).

(** The contract of [rmse] in the specification's words:
    [sqrt(sum(loss(x_i, y_i) for all i)) / len(xs)]. *)
Definition rmse_formula (self : LinearModel) (xs ys : list float) : result float :=
  match all_ok (losses_by_index self xs ys (List.length xs)) with
  | Ok ls => Ok (sqrt (Py.sum ls) / Py.float_of_int (Z.of_nat (List.length xs)))
  | Raise e => Raise e
  end.

(** The textbook root-mean-square error: the sum is divided by [n] before
    the square root. *)
Definition rmse_textbook (self : LinearModel) (xs ys : list float) : result float :=
  match all_ok (losses_by_index self xs ys (List.length xs)) with
  | Ok ls => Ok (sqrt (Py.sum ls / Py.float_of_int (Z.of_nat (List.length xs))))
  | Raise e => Raise e
  end.





(** Supplied as [None], or as a float that is falsy. *)
Definition absent_or_falsy (v : option float) : Prop :=
  v = None \/ exists f, v = Some f /\ Py.truthy f = false.

(** The range of [random.random()]. *)
Definition in_unit_interval (f : float) : Prop :=
  (0 <=? f) = true /\ (f <? 1) = true.

(** Sign facts on the specification side of [float]. *)
Definition sf_not_negative (r : spec_float) : bool :=
  match r with
  | S754_nan | S754_zero _ => true
  | S754_infinity s | S754_finite s _ _ => negb s
  end.

Definition sf_signed (s : bool) (r : spec_float) : Prop :=
  match r with
  | S754_nan => False
  | S754_zero s' | S754_infinity s' | S754_finite s' _ _ => s' = s
  end.

(** ** Sample states and statements to test *)

(** [LinearModel(2, 1)] and [LinearModel(1, 1)]. *)
Definition two_one : LinearModel := {| m := 2; b := 1; history := [] |}.
Definition one_one : LinearModel := {| m := 1; b := 1; history := [] |}.


(** [LinearModel(1e308, 1)] after [step(1e308, 0)]: the slope is [inf]. *)
Definition exploded : LinearModel :=
  state_after (step 1e308 0) {| m := 1e308; b := 1; history := [] |}.

(** A generator that always draws 0.5. *)
Definition half_rng (n : nat) : float * nat := (0.5, S n).



(** [update_history] leaves the history one record longer. *)
Definition appends_one_record (self : LinearModel) (x y : float) (ep : Z)
    (msg : option string) : Prop :=
  exists r : TrainingRecord,
    state_after (update_history x y ep msg) self =
    {| m := m self; b := b self; history := history self ++ [r] |}.

(** [rmse] fails when the lengths differ or are zero. *)
Definition rmse_rejects_mismatch (self : LinearModel) (xs ys : list float) : Prop :=
  List.length xs <> List.length ys \/ xs = [] ->
  returns (value_of (rmse xs ys) self) = false.

(** [rmse] raises nothing when [xs] is not empty and no longer than [ys]. *)
Definition rmse_returns_when_shorter (self : LinearModel) (xs ys : list float)
  : Prop :=
  (0 < List.length xs)%nat -> (List.length xs <= List.length ys)%nat ->
  returns (value_of (rmse xs ys) self) = true.

(** ** Sequences of calls *)

(** One call a user makes on the object. *)
Inductive call : Type :=
| CallPredict (x : float)
| CallError (x y : float)
| CallGradient (x y : float)
| CallLoss (x y : float)
| CallRmse (xlist ylist : list float)
| CallStep (m_step b_step : float)
| CallUpdateHistory (x y : float) (epoch : Z) (message : option string)
| CallStr.

(** The state a call leaves, whether it returns or raises. *)
Definition after_call (c : call) (self : LinearModel) : LinearModel :=
  match c with
  | CallPredict x => state_after (predict x) self
  | CallError x y => state_after (error x y) self
  | CallGradient x y => state_after (gradient x y) self
  | CallLoss x y => state_after (loss x y) self
  | CallRmse xs ys => state_after (rmse xs ys) self
  | CallStep ms bs => state_after (step ms bs) self
  | CallUpdateHistory x y ep msg => state_after (update_history x y ep msg) self
  | CallStr => state_after __str__ self
  end.

Definition after_calls (cs : list call) (self : LinearModel) : LinearModel :=
  fold_left (fun s c => after_call c s) cs self.

Definition is_update (c : call) : bool :=
  match c with CallUpdateHistory _ _ _ _ => true | _ => false end.

Definition is_step (c : call) : bool :=
  match c with CallStep _ _ => true | _ => false end.

(** The relations between the fields of one record of the history: the
    prediction and the error are those of the recorded slope, intercept and
    observation, and the loss is what [loss] returns for them. *)
Definition record_consistent (r : TrainingRecord) : Prop :=
  prediction r = rec_m r * fst (observation r) + rec_b r /\
  rec_error r = prediction r - snd (observation r) /\
  value_of (loss (fst (observation r)) (snd (observation r)))
    {| m := rec_m r; b := rec_b r; history := [] |} = Ok (rec_loss r).

(** The generator after [n] draws. *)
Definition after_draws {rng : Type} (random_random : rng -> float * rng)
    (n : nat) (g : rng) : rng :=
  Nat.iter n (fun g' => snd (random_random g')) g.

(** [true] when [v or random.random()] asks the generator. *)
Definition needs_draw (v : option float) : bool :=
  match Py.falsy_to_none v with Some _ => false | None => true end.

(** ** Facts about binary64 arithmetic *)

Section FloatFacts.

#[local] Open Scope Z_scope.

Lemma shr_1_nonneg (mrs : shr_record) :
  0 <= shr_m mrs -> 0 <= shr_m (shr_1 mrs).
Proof.
  destruct mrs as [mm r s]; simpl.
  destruct mm as [|[p|p|]|[p|p|]]; simpl; lia.
Qed.

Lemma iter_shr_1_nonneg (p : positive) :
  forall mrs, 0 <= shr_m mrs -> 0 <= shr_m (iter_pos shr_1 p mrs).
Proof.
  induction p as [p IH|p IH|]; intros mrs H; simpl.
  - apply IH, IH, shr_1_nonneg, H.
  - apply IH, IH, H.
  - apply shr_1_nonneg, H.
Qed.

Lemma shr_fexp_nonneg (mx ex : Z) (lx : location) :
  0 <= mx -> 0 <= shr_m (fst (shr_fexp prec emax mx ex lx)).
Proof.
  intros H. unfold shr_fexp, shr.
  assert (H0 : 0 <= shr_m (shr_record_of_loc mx lx))
    by (destruct lx as [|[]]; exact H).
  destruct (fexp prec emax (Zdigits2 mx + ex) - ex); simpl; auto.
  apply iter_shr_1_nonneg, H0.
Qed.

Lemma round_nearest_even_nonneg (mx : Z) (lx : location) :
  0 <= mx -> 0 <= round_nearest_even mx lx.
Proof.
  intros H. destruct lx as [|[]]; simpl; try lia.
  destruct (Z.even mx); lia.
Qed.

Lemma binary_round_aux_signed (s : bool) (mx ex : Z) (lx : location) :
  0 <= mx -> sf_signed s (binary_round_aux prec emax s mx ex lx).
Proof.
  intros H. unfold binary_round_aux.
  pose proof (shr_fexp_nonneg mx ex lx H) as H1.
  destruct (shr_fexp prec emax mx ex lx) as [mrs' e']. simpl in H1.
  pose proof (shr_fexp_nonneg _ e' loc_Exact
                (round_nearest_even_nonneg _ (loc_of_shr_record mrs') H1)) as H2.
  destruct (shr_fexp prec emax _ e' loc_Exact) as [mrs'' e'']. simpl in H2.
  destruct (shr_m mrs'') as [|q|q]; simpl; try reflexivity; try lia.
  destruct (_ <=? _); simpl; reflexivity.
Qed.

Lemma binary_round_signed (s : bool) (mx : positive) (ex : Z) :
  sf_signed s (binary_round prec emax s mx ex).
Proof.
  unfold binary_round.
  destruct (shl_align mx ex _) as [mz ez].
  apply binary_round_aux_signed. lia.
Qed.

End FloatFacts.

Lemma sf_signed_not_negative (r : spec_float) :
  sf_signed false r -> sf_not_negative r = true.
Proof. destruct r; simpl; intros H; subst; auto. Qed.

Lemma sf_signed_not_nan (s : bool) (r : spec_float) :
  sf_signed s r -> r <> S754_nan.
Proof. destruct r; simpl; intros H; congruence || contradiction. Qed.

Lemma not_negative_sf (f : float) :
  not_negative f = sf_not_negative (Prim2SF f).
Proof.
  unfold not_negative. rewrite ltb_spec.
  change (Prim2SF 0) with (S754_zero false).
  destruct (Prim2SF f) as [[]|[]| |[] ? ?]; reflexivity.
Qed.

Lemma is_nan_sf (f : float) :
  is_nan f = match Prim2SF f with S754_nan => true | _ => false end.
Proof.
  unfold is_nan. rewrite eqb_spec.
  destruct (Prim2SF f) as [[]|[]| |[] mf ef]; try reflexivity;
    unfold SFeqb, SFcompare; rewrite Z.compare_refl, Pos.compare_cont_refl;
    reflexivity.
Qed.

Lemma is_infinity_sf (f : float) :
  is_infinity f = match Prim2SF f with S754_infinity _ => true | _ => false end.
Proof.
  unfold is_infinity. rewrite eqb_spec, abs_spec.
  change (Prim2SF infinity) with (S754_infinity false).
  destruct (Prim2SF f) as [[]|[]| |[] mf ef]; reflexivity.
Qed.

Lemma sq_abs (x : float) : (abs x * abs x = x * x)%float.
Proof.
  apply Prim2SF_inj. rewrite !mul_spec, abs_spec.
  destruct (Prim2SF x) as [[]|[]| |[] mf ef]; reflexivity.
Qed.

Lemma sq_not_negative (x : float) : not_negative (x * x) = true.
Proof.
  rewrite not_negative_sf, mul_spec.
  destruct (Prim2SF x) as [[]|[]| |s mf ef]; try reflexivity.
  apply sf_signed_not_negative. unfold SF64mul, SFmul.
  replace (xorb s s) with false by (destruct s; reflexivity).
  apply binary_round_aux_signed. lia.
Qed.

Lemma add_not_negative (x y : float) :
  not_negative x = true -> not_negative y = true -> not_negative (x + y) = true.
Proof.
  rewrite !not_negative_sf, add_spec.
  destruct (Prim2SF x) as [[]|[]| |[] mx ex];
    destruct (Prim2SF y) as [[]|[]| |[] my ey]; simpl; try reflexivity;
    try discriminate.
  intros _ _. apply sf_signed_not_negative.
  unfold SF64add, SFadd, binary_normalize, cond_Zopp.
  apply binary_round_signed.
Qed.

Lemma sqrt_not_nan (x : float) :
  not_negative x = true -> is_nan x = false -> is_nan (sqrt x) = false.
Proof.
  rewrite not_negative_sf, !is_nan_sf, sqrt_spec.
  destruct (Prim2SF x) as [[]|[]| |[] mx ex]; simpl; try reflexivity;
    try discriminate.
  intros _ _. unfold SF64sqrt, SFsqrt.
  destruct (SFsqrt_core_binary prec emax (Z.pos mx) ex) as [[mz ez] lz] eqn:E.
  assert (Hmz : (0 <= mz)%Z).
  { unfold SFsqrt_core_binary in E.
    destruct (Z.sqrtrem _) as [q r] eqn:Eq in E.
    injection E as <- _ _.
    pose proof (Z.sqrtrem_sqrt (match (ex - 2 * Z.min (fexp prec emax (Z.div2 (Zdigits2 (Z.pos mx) + ex + 1))) (Z.div2 ex))%Z with
        | 0%Z => Z.pos mx | Z.pos _ => Z.shiftl (Z.pos mx) (ex - 2 * Z.min (fexp prec emax (Z.div2 (Zdigits2 (Z.pos mx) + ex + 1))) (Z.div2 ex)) | Z.neg _ => 0%Z end)) as Hs.
    rewrite Eq in Hs. simpl in Hs. subst q. apply Z.sqrt_nonneg. }
  pose proof (binary_round_aux_signed false mz ez lz Hmz) as Hs.
  destruct (binary_round_aux prec emax false mz ez lz); simpl in Hs; auto; contradiction.
Qed.

(** ** What each call evaluates to *)

Lemma predict_run (x : float) (self : LinearModel) :
  predict x self = (Ok (m self * x + b self), self).
Proof. reflexivity. Qed.

Lemma error_run (x y : float) (self : LinearModel) :
  error x y self = (Ok (m self * x + b self - y), self).
Proof. reflexivity. Qed.

Lemma loss_run (x y : float) (self : LinearModel) :
  loss x y self = (Py.pow2 (m self * x + b self - y), self).
Proof. reflexivity. Qed.

(** ** Squaring *)

Lemma pow2_Ok_sq (e v : float) : Py.pow2 e = Ok v -> v = e * e.
Proof.
  unfold Py.pow2. rewrite is_nan_sf, is_infinity_sf.
  destruct (Prim2SF e) as [s|s| |s me ee] eqn:E.
  - destruct (is_infinity _); [discriminate|].
    intros [= <-]. apply sq_abs.
  - intros [= <-]. apply Prim2SF_inj. rewrite mul_spec, E.
    destruct s; reflexivity.
  - intros [= <-]. apply Prim2SF_inj. rewrite mul_spec, E. reflexivity.
  - destruct (is_infinity _); [discriminate|].
    intros [= <-]. apply sq_abs.
Qed.

Lemma pow2_Ok_not_negative (e v : float) :
  Py.pow2 e = Ok v -> not_negative v = true.
Proof. intros H. rewrite (pow2_Ok_sq e v H). apply sq_not_negative. Qed.

Lemma pow2_Raise (e : float) (ex : exn) :
  Py.pow2 e = Raise ex ->
  ex = OverflowError /\ is_finite e = true /\ is_infinity (e * e) = true.
Proof.
  unfold Py.pow2, is_finite. rewrite sq_abs.
  destruct (is_nan e); [discriminate|].
  destruct (is_infinity e); [discriminate|].
  destruct (is_infinity (e * e)); [|discriminate].
  intros [= <-]. auto.
Qed.



(** ** Summing and the square root of a sum of losses *)

Lemma sum_not_negative (l : list float) :
  Forall (fun v => not_negative v = true) l -> not_negative (Py.sum l) = true.
Proof.
  unfold Py.sum.
  assert (H0 : not_negative 0 = true) by reflexivity.
  revert H0. generalize 0%float as acc.
  induction l as [|v l IH]; intros acc Hacc Hl; simpl.
  - exact Hacc.
  - inversion Hl as [|? ? Hv Hl']; subst.
    apply IH; [apply add_not_negative; assumption | assumption].
Qed.

Lemma math_sqrt_not_negative (x : float) :
  not_negative x = true -> Py.math_sqrt x = Ok (sqrt x).
Proof.
  intros H. unfold Py.math_sqrt.
  destruct (is_nan x) eqn:En.
  - rewrite andb_false_r. reflexivity.
  - rewrite (sqrt_not_nan x H En). reflexivity.
Qed.

(** ** Outcomes of a list of calls *)

Lemma all_ok_Ok {A : Type} (l : list (result A)) (vs : list A) :
  all_ok l = Ok vs -> l = map Ok vs.
Proof.
  revert vs. induction l as [|[a|e] l IH]; intros vs; simpl.
  - intros [= <-]. reflexivity.
  - destruct (all_ok l) as [ws|e]; [|discriminate].
    intros [= <-]. simpl. f_equal. now apply IH.
  - discriminate.
Qed.

Lemma all_ok_Raise {A : Type} (l : list (result A)) (e : exn) :
  all_ok l = Raise e -> In (Raise e) l.
Proof.
  induction l as [|[a|e'] l IH]; simpl.
  - discriminate.
  - destruct (all_ok l) as [ws|e'']; [discriminate|].
    intros [= <-]. right. now apply IH.
  - intros [= <-]. now left.
Qed.

Lemma all_ok_returns {A : Type} (l : list (result A)) :
  returns (all_ok l) = forallb returns l.
Proof.
  induction l as [|[a|e] l IH]; simpl; try reflexivity.
  rewrite <- IH. destruct (all_ok l); reflexivity.
Qed.

Lemma for_each_loss (l : list (float * float)) (self : LinearModel) :
  for_each (fun xy => loss (fst xy) (snd xy)) l self =
  (all_ok (map (fun xy => value_of (loss (fst xy) (snd xy)) self) l), self).
Proof.
  induction l as [|[x y] l IH]; [reflexivity|].
  simpl for_each. unfold bind at 1. simpl fst; simpl snd.
  rewrite loss_run. simpl map. unfold value_of at 1. rewrite loss_run. simpl fst.
  destruct (Py.pow2 _) as [v|e]; [|reflexivity].
  unfold bind at 1. rewrite IH. simpl.
  destruct (all_ok _); reflexivity.
Qed.

Lemma combine_by_index {B : Type} (g : float -> float -> B) :
  forall xs ys : list float,
    (List.length xs <= List.length ys)%nat ->
    map (fun xy => g (fst xy) (snd xy)) (combine xs ys) =
    map (fun i => g (nth i xs 0) (nth i ys 0)) (seq 0 (List.length xs)).
Proof.
  induction xs as [|x xs IH]; intros ys Hlen; [reflexivity|].
  destruct ys as [|y ys]; [simpl in Hlen; lia|].
  simpl in Hlen. simpl. f_equal.
  rewrite <- seq_shift, map_map. apply IH. lia.
Qed.

(** The value and the state of [rmse], by the outcomes of the paired losses. *)
Lemma rmse_run (xs ys : list float) (self : LinearModel) :
  rmse xs ys self =
  (match all_ok (map (fun xy => value_of (loss (fst xy) (snd xy)) self)
                     (combine xs ys)) with
   | Ok ls => Py.truediv_int (sqrt (Py.sum ls)) (List.length xs)
   | Raise e => Raise e
   end, self).
Proof.
  unfold rmse. unfold bind at 1. rewrite for_each_loss.
  destruct (all_ok _) as [ls|e] eqn:E; [|reflexivity].
  unfold bind, lift.
  rewrite math_sqrt_not_negative; [reflexivity|].
  apply sum_not_negative.
  apply all_ok_Ok in E.
  apply Forall_forall. intros v Hv.
  assert (Hin : In (Ok v) (map (@Ok float) ls)) by (apply in_map; exact Hv).
  rewrite <- E in Hin. apply in_map_iff in Hin.
  destruct Hin as [[x y] [Hxy _]].
  unfold value_of in Hxy. rewrite loss_run in Hxy. simpl in Hxy.
  apply (pow2_Ok_not_negative _ _ Hxy).
Qed.

(** ** predict, error, gradient, loss *)

(** C7.  For every [x] (finite or not) and every state of the model,
    [predict(x)] returns the float [self.m * x + self.b] and leaves slope,
    intercept and history as they were. *)
Theorem predict_spec (self : LinearModel) (x : float) :
  value_of (predict x) self = Ok (m self * x + b self) /\
  state_after (predict x) self = self.
Proof. split; reflexivity. Qed.

(** C4.  For every observation and every state of the model,
    [gradient(x, y)] returns the pair [(x * e, e)] where [e] is what
    [error(x, y)] returns, with no factor 2, and the model is unchanged. *)
Theorem gradient_spec (self : LinearModel) (x y : float) :
  exists e : float,
    value_of (error x y) self = Ok e /\
    value_of (gradient x y) self = Ok (x * e, e) /\
    state_after (gradient x y) self = self.
Proof.
  exists (m self * x + b self - y). repeat split; reflexivity.
Qed.

Lemma opp_nan_sf (e : float) : is_nan (- e) = is_nan e.
Proof. rewrite !is_nan_sf, opp_spec. destruct (Prim2SF e); reflexivity. Qed.

Lemma pow2_opp (e : float) : Py.pow2 (- e) = Py.pow2 e.
Proof.
  assert (Habs : abs (- e) = abs e).
  { apply Prim2SF_inj. rewrite !abs_spec, opp_spec.
    destruct (Prim2SF e); reflexivity. }
  unfold Py.pow2. rewrite opp_nan_sf. unfold is_infinity at 1 2.
  rewrite Habs. fold (is_infinity e).
  destruct (is_nan e) eqn:En; [|reflexivity].
  f_equal. apply Prim2SF_inj. rewrite opp_spec.
  rewrite is_nan_sf in En. destruct (Prim2SF e); try discriminate En.
  reflexivity.
Qed.







(** ** step *)



(** ** update_history *)

Lemma update_history_overflow_counterexample :
  update_history 1e200 0 0 None one_one = (Raise OverflowError, one_one) /\
  ~ appends_one_record one_one 1e200 0 0 None.
Proof.
  split; [reflexivity|].
  intros [r H]. apply (f_equal (fun s => List.length (history s))) in H.
  vm_compute in H. discriminate H.
Qed.

(** C5 (amended).  When [loss(x, y)] returns, [update_history(x, y, epoch,
    message)] appends exactly one record after the records already there,
    holding the slope and intercept of the call, the observation, the values
    [predict], [error] and [loss] return for it, the epoch and the message;
    slope and intercept are not changed, and in the record
    [prediction = m * x + b], [error = prediction - y], and the loss is what
    [loss] returns for the recorded slope, intercept and observation, never
    below zero.  When [loss(x, y)] raises OverflowError, so does
    [update_history], and the model, history included, is unchanged. *)
Theorem update_history_spec (self : LinearModel) (x y : float) (ep : Z)
    (msg : option string) :
  (exists r : TrainingRecord,
     update_history x y ep msg self =
       (Ok tt, {| m := m self; b := b self; history := history self ++ [r] |}) /\
     rec_m r = m self /\ rec_b r = b self /\ observation r = (x, y) /\
     value_of (predict x) self = Ok (prediction r) /\
     value_of (error x y) self = Ok (rec_error r) /\
     value_of (loss x y) self = Ok (rec_loss r) /\
     epoch r = ep /\ message r = msg /\
     prediction r = rec_m r * x + rec_b r /\
     rec_error r = prediction r - y /\
     value_of (loss x y) {| m := rec_m r; b := rec_b r; history := [] |}
       = Ok (rec_loss r) /\
     (rec_loss r <? 0) = false)
  \/
  (value_of (loss x y) self = Raise OverflowError /\
   update_history x y ep msg self = (Raise OverflowError, self)).
Proof.
  unfold value_of. rewrite !loss_run, error_run, predict_run. simpl fst.
  unfold update_history, bind, get. rewrite predict_run, error_run, loss_run.
  destruct (Py.pow2 (m self * x + b self - y)) as [v|ex] eqn:E.
  - left. eexists. split; [reflexivity|]. simpl.
    repeat split; try reflexivity; try exact E.
    pose proof (pow2_Ok_not_negative _ _ E) as H. unfold not_negative in H.
    now apply negb_true_iff in H.
  - right. apply pow2_Raise in E. destruct E as [-> _]. split; reflexivity.
Qed.

(** ** rmse *)

Lemma loss_value_Raise (self : LinearModel) (x y : float) (e : exn) :
  value_of (loss x y) self = Raise e -> e = OverflowError.
Proof.
  unfold value_of. rewrite loss_run. simpl. intros H.
  apply pow2_Raise in H. tauto.
Qed.

Lemma losses_outcome (self : LinearModel) (l : list (float * float)) :
  (exists ls,
     all_ok (map (fun xy => value_of (loss (fst xy) (snd xy)) self) l) = Ok ls /\
     forall x y, In (x, y) l -> returns (value_of (loss x y) self) = true)
  \/
  (all_ok (map (fun xy => value_of (loss (fst xy) (snd xy)) self) l)
     = Raise OverflowError /\
   exists x y, In (x, y) l /\ value_of (loss x y) self = Raise OverflowError).
Proof.
  destruct (all_ok _) as [ls|e] eqn:E.
  - left. exists ls. split; [reflexivity|]. intros x y Hin.
    apply all_ok_Ok in E.
    assert (H : In (value_of (loss x y) self) (map (@Ok float) ls)).
    { rewrite <- E.
      apply (in_map (fun xy => value_of (loss (fst xy) (snd xy)) self) l (x, y) Hin). }
    apply in_map_iff in H. destruct H as [v [<- _]]. reflexivity.
  - right. apply all_ok_Raise in E. apply in_map_iff in E.
    destruct E as [[x y] [Hxy Hin]]. simpl in Hxy.
    pose proof (loss_value_Raise self x y e Hxy) as ->.
    split; [reflexivity|]. now exists x, y.
Qed.

Lemma combine_firstn_r (xs ys : list float) :
  combine xs (firstn (List.length xs) ys) = combine xs ys.
Proof.
  revert ys. induction xs as [|x xs IH]; intros [|y ys]; simpl; try reflexivity.
  now rewrite IH.
Qed.

Lemma rmse_by_index (xs ys : list float) (self : LinearModel) :
  (List.length xs <= List.length ys)%nat ->
  rmse xs ys self =
  (match all_ok (losses_by_index self xs ys (List.length xs)) with
   | Ok ls => Py.truediv_int (sqrt (Py.sum ls)) (List.length xs)
   | Raise e => Raise e
   end, self).
Proof.
  intros Hlen. rewrite rmse_run. unfold losses_by_index.
  rewrite (combine_by_index (fun x y => value_of (loss x y) self) xs ys Hlen).
  reflexivity.
Qed.

(** C1.  For sequences [xs], [ys] of equal, non-zero length, [rmse(xs, ys)]
    is [sqrt(sum(loss(x_i, y_i) for all i)) / len(xs)]: the square root of
    the total loss, divided by [n] afterwards (an exception of a
    [loss(x_i, y_i)] is the exception of [rmse]); the model is unchanged. *)
Theorem rmse_is_sqrt_total_over_n (self : LinearModel) (xs ys : list float) :
  List.length xs = List.length ys -> xs <> [] ->
  rmse xs ys self = (rmse_formula self xs ys, self).
Proof.
  intros Hlen Hne. rewrite rmse_by_index by lia. unfold rmse_formula.
  destruct (all_ok _); [|reflexivity].
  destruct xs; [contradiction|reflexivity].
Qed.

Lemma rmse_is_sqrt_total_over_n_witness :
  rmse [3; 1] [10; 3] two_one = (rmse_formula two_one [3; 1] [10; 3], two_one).
Proof.
  apply (rmse_is_sqrt_total_over_n two_one [3; 1] [10; 3]);
    [reflexivity | discriminate].
Defined.

(** The formula is not the textbook one: four observations with loss 4
    each give [sqrt(16) / 4 = 1], where the textbook gives
    [sqrt(16 / 4) = 2]. *)
Lemma rmse_differs_from_textbook :
  value_of (rmse [1; 1; 1; 1] [1; 1; 1; 1]) two_one = Ok 1 /\
  rmse_textbook two_one [1; 1; 1; 1] [1; 1; 1; 1] = Ok 2.
Proof. split; reflexivity. Qed.

(** With slope 2 and intercept 1, [rmse([1], [1, 2])] zips one pair, whose
    loss is 4, and returns [sqrt(4) / 1]; [rmse([1], [])] zips nothing and
    returns [sqrt(0) / 1]. *)
Lemma rmse_mismatch_counterexample :
  value_of (rmse [1] [1; 2]) two_one = Ok 2 /\
  value_of (rmse [1] []) two_one = Ok 0 /\
  ~ rmse_rejects_mismatch two_one [1] [1; 2].
Proof.
  split; [reflexivity|]. split; [reflexivity|].
  intros H.
  assert (Hlen : List.length [1] <> List.length [1; 2]) by (simpl; lia).
  apply (fun H0 => H (or_introl H0)) in Hlen.
  vm_compute in Hlen. discriminate Hlen.
Qed.

(** C2 (amended).  [rmse(xs, ys)] raises ZeroDivisionError exactly when
    [xs] is empty, whatever [ys] is; it raises OverflowError exactly when
    the loss of one of the zipped pairs does; it raises nothing else, in
    particular nothing for lengths that differ; so it returns a value
    exactly when [xs] is not empty and every zipped pair has a loss.  It
    never changes the model. *)
Theorem rmse_failures (self : LinearModel) (xs ys : list float) :
  (value_of (rmse xs ys) self = Raise ZeroDivisionError <-> xs = []) /\
  (value_of (rmse xs ys) self = Raise OverflowError <->
   exists x y, In (x, y) (combine xs ys) /\
               value_of (loss x y) self = Raise OverflowError) /\
  value_of (rmse xs ys) self <> Raise ValueError /\
  (returns (value_of (rmse xs ys) self) = true <->
   xs <> [] /\
   forall x y, In (x, y) (combine xs ys) ->
               returns (value_of (loss x y) self) = true) /\
  state_after (rmse xs ys) self = self.
Proof.
  assert (Hv : value_of (rmse xs ys) self = fst (rmse xs ys self)) by reflexivity.
  assert (Hs : state_after (rmse xs ys) self = snd (rmse xs ys self)) by reflexivity.
  rewrite rmse_run in Hv, Hs. simpl in Hv, Hs. rewrite Hv, Hs. clear Hv Hs.
  destruct (losses_outcome self (combine xs ys))
    as [(ls & -> & Hall) | (-> & x & y & Hin & Hxy)].
  - assert (Hno : ~ exists x y, In (x, y) (combine xs ys) /\
                    value_of (loss x y) self = Raise OverflowError).
    { intros (x & y & Hin & Hxy). specialize (Hall x y Hin).
      rewrite Hxy in Hall. discriminate. }
    destruct xs as [|x0 xs]; simpl Py.truediv_int.
    + split; [split; reflexivity|].
      split; [split; [discriminate | intros H; now destruct Hno]|].
      split; [discriminate|].
      split; [|reflexivity].
      split; [discriminate | intros [H _]; now destruct H].
    + split; [split; discriminate|].
      split; [split; [discriminate | intros H; now destruct Hno]|].
      split; [discriminate|].
      split; [|reflexivity].
      split; [intros _; split; [discriminate | exact Hall] | reflexivity].
  - assert (Hne : xs <> []) by (intros ->; destruct Hin).
    split; [split; [discriminate | intros H; now destruct Hne]|].
    split; [split; [intros _; now exists x, y | reflexivity]|].
    split; [discriminate|].
    split; [|reflexivity].
    split; [discriminate|].
    intros [_ H]. specialize (H x y Hin). rewrite Hxy in H. discriminate.
Qed.

(** With slope 1 and intercept 1, [rmse([1e200], [0, 0])] asks for
    [loss(1e200, 0)], which raises. *)
Lemma rmse_overflow_counterexample :
  value_of (rmse [1e200] [0; 0]) one_one = Raise OverflowError /\
  ~ rmse_returns_when_shorter one_one [1e200] [0; 0].
Proof.
  split; [reflexivity|].
  intros H.
  assert (Hpos : (0 < List.length [1e200%float])%nat) by (simpl; lia).
  assert (Hlen : (List.length [1e200%float] <= List.length [0%float; 0%float])%nat)
    by (simpl; lia).
  pose proof (H Hpos Hlen) as H'.
  vm_compute in H'. discriminate H'.
Qed.

(** C10 (amended).  For [xs] not empty and no longer than [ys], [rmse(xs,
    ys)] pairs the elements by position and ignores the elements of [ys]
    beyond [len(xs)].  It raises OverflowError when the loss of one of these
    pairs does, and nothing else; otherwise it returns the square root of the
    sum of the [len(xs)] losses, divided by [len(xs)]. *)
Theorem rmse_truncates (self : LinearModel) (xs ys : list float) :
  (0 < List.length xs)%nat -> (List.length xs <= List.length ys)%nat ->
  rmse xs ys self = rmse xs (firstn (List.length xs) ys) self /\
  ((value_of (rmse xs ys) self = Raise OverflowError /\
    exists i, (i < List.length xs)%nat /\
      value_of (loss (nth i xs 0) (nth i ys 0)) self = Raise OverflowError)
   \/
   exists ls : list float,
     List.length ls = List.length xs /\
     (forall i, (i < List.length xs)%nat ->
        value_of (loss (nth i xs 0) (nth i ys 0)) self = Ok (nth i ls 0)) /\
     rmse xs ys self =
       (Ok (sqrt (Py.sum ls) / Py.float_of_int (Z.of_nat (List.length xs))),
        self)).
Proof.
  intros Hpos Hlen. split.
  { rewrite !rmse_run, combine_firstn_r. reflexivity. }
  unfold value_of at 1. rewrite rmse_by_index by exact Hlen. simpl fst.
  destruct (all_ok _) as [ls|e] eqn:E.
  - right. exists ls. apply all_ok_Ok in E.
    assert (Hl : List.length ls = List.length xs).
    { apply (f_equal (@List.length _)) in E.
      unfold losses_by_index in E.
      rewrite !length_map, length_seq in E. symmetry. exact E. }
    split; [exact Hl|]. split.
    + intros i Hi.
      assert (H : nth i (losses_by_index self xs ys (List.length xs))
                    (Raise ValueError) = nth i (map (@Ok float) ls) (Raise ValueError))
        by now rewrite E.
      unfold losses_by_index in H.
      rewrite (nth_indep _ (Raise ValueError)
                 (value_of (loss (nth 0 xs 0) (nth 0 ys 0)) self)) in H
        by now rewrite length_map, length_seq.
      rewrite (map_nth (fun i => value_of (loss (nth i xs 0) (nth i ys 0)) self)
                 (seq 0 (List.length xs)) 0%nat i) in H.
      rewrite seq_nth in H by exact Hi. simpl in H. rewrite H.
      rewrite (nth_indep _ (Raise ValueError) (Ok 0))
        by now rewrite length_map, Hl.
      apply (map_nth (@Ok float) ls 0 i).
    + destruct xs; [simpl in Hpos; lia | reflexivity].
  - left. apply all_ok_Raise in E. unfold losses_by_index in E.
    apply in_map_iff in E. destruct E as [i [Hi Hin]].
    pose proof (loss_value_Raise _ _ _ _ Hi) as ->.
    split; [reflexivity|]. exists i. split; [|exact Hi].
    apply in_seq in Hin. lia.
Qed.

Lemma rmse_truncates_witness :
  rmse [3; 1] [10; 3; 99] two_one = rmse [3; 1] (firstn 2 [10; 3; 99]) two_one.
Proof.
  apply (rmse_truncates two_one [3; 1] [10; 3; 99]); simpl; lia.
Defined.

(** ** Construction *)

Lemma falsy_is_zero (f : float) :
  Py.truthy f = false <-> f = 0 \/ f = (-0).
Proof.
  unfold Py.truthy. rewrite negb_false_iff. split.
  - rewrite eqb_spec. change (Prim2SF 0) with (S754_zero false).
    intros H. rewrite <- (SF2Prim_Prim2SF f).
    destruct (Prim2SF f) as [[]|[]| |[] mf ef]; try discriminate H.
    + right. reflexivity.
    + left. reflexivity.
  - intros [-> | ->]; reflexivity.
Qed.

Lemma or_random_supplied (rng : Type) (random_random : rng -> float * rng)
    (f : float) (g : rng) :
  Py.truthy f = true -> or_random rng random_random (Some f) g = (f, g).
Proof. intros H. unfold or_random. simpl. rewrite H. reflexivity. Qed.

Lemma or_random_falsy (rng : Type) (random_random : rng -> float * rng)
    (v : option float) (g : rng) :
  absent_or_falsy v -> or_random rng random_random v g = random_random g.
Proof.
  intros [-> | (f & -> & H)]; unfold or_random; simpl; [|rewrite H]; reflexivity.
Qed.

(** C3.  Construction stores a supplied slope or intercept that is truthy
    as it is.  A slope or intercept that is absent or falsy, and a supplied
    0.0 is falsy, is replaced by the next value of [random.random()], which
    lies in [0, 1); the slope is settled before the intercept.  The history
    starts empty. *)
Theorem init_spec (rng : Type) (random_random : rng -> float * rng)
    (m0 b0 : option float) (g : rng) :
  (forall g', in_unit_interval (fst (random_random g'))) ->
  let self := fst (__init__ rng random_random m0 b0 g) in
  let g1 := snd (or_random rng random_random m0 g) in
  history self = [] /\
  absent_or_falsy (Some 0) /\
  (forall f, m0 = Some f -> Py.truthy f = true -> m self = f /\ g1 = g) /\
  (absent_or_falsy m0 ->
   m self = fst (random_random g) /\ in_unit_interval (m self) /\
   g1 = snd (random_random g)) /\
  (forall f, b0 = Some f -> Py.truthy f = true -> b self = f) /\
  (absent_or_falsy b0 ->
   b self = fst (random_random g1) /\ in_unit_interval (b self)).
Proof.
  intros Hrange self g1.
  assert (Hm : m self = fst (or_random rng random_random m0 g)).
  { unfold self, __init__.
    destruct (or_random rng random_random m0 g) as [m' g'].
    destruct (or_random rng random_random b0 g'). reflexivity. }
  assert (Hb : b self = fst (or_random rng random_random b0 g1)).
  { unfold self, g1, __init__.
    destruct (or_random rng random_random m0 g) as [m' g']. simpl.
    destruct (or_random rng random_random b0 g'). reflexivity. }
  assert (Hh : history self = []).
  { unfold self, __init__.
    destruct (or_random rng random_random m0 g) as [m' g'].
    destruct (or_random rng random_random b0 g'). reflexivity. }
  split; [exact Hh|].
  split; [right; exists 0; split; reflexivity|].
  split.
  { intros f -> Hf. rewrite Hm. unfold g1.
    rewrite (or_random_supplied _ _ f g Hf). split; reflexivity. }
  split.
  { intros Ha. rewrite Hm. unfold g1.
    rewrite (or_random_falsy _ _ m0 g Ha).
    split; [reflexivity|]. split; [apply Hrange | reflexivity]. }
  split.
  { intros f -> Hf. rewrite Hb.
    rewrite (or_random_supplied _ _ f g1 Hf). reflexivity. }
  intros Ha. rewrite Hb, (or_random_falsy _ _ b0 g1 Ha).
  split; [reflexivity | apply Hrange].
Qed.

Lemma init_spec_witness :
  let self := fst (__init__ nat half_rng (Some 0) (Some 3) 0%nat) in
  m self = 0.5 /\ b self = 3 /\ history self = [].
Proof.
  pose proof (init_spec nat half_rng (Some 0) (Some 3) 0%nat
                (fun g' => conj eq_refl eq_refl)) as H.
  cbv zeta in H. destruct H as (Hh & H0 & _ & Hm & Hb & _).
  split; [apply (Hm H0)|]. split; [apply (Hb 3 eq_refl eq_refl) | exact Hh].
Defined.

(** ** The string form *)

Lemma div_half_even_nearest (p q : Z) :
  (0 < q)%Z ->
  (- q <= 2 * (p - q * Py.div_half_even p q) <= q)%Z.
Proof.
  intros Hq. unfold Py.div_half_even.
  pose proof (Z.div_mod p q ltac:(lia)) as Hdm.
  pose proof (Z.mod_pos_bound p q Hq) as Hr.
  destruct (Z.compare_spec (2 * (p mod q)) q) as [He|Hl|Hg].
  - destruct (Z.even (p / q)); lia.
  - lia.
  - lia.
Qed.









(** ** The history under any sequence of calls *)

Lemma update_history_run (x y : float) (ep : Z) (msg : option string)
    (self : LinearModel) :
  update_history x y ep msg self =
  match Py.pow2 (m self * x + b self - y) with
  | Ok l =>
      (Ok tt,
       {| m := m self; b := b self;
          history := history self ++
            [ {| rec_m := m self; rec_b := b self; observation := (x, y);
                 prediction := m self * x + b self;
                 rec_error := m self * x + b self - y; rec_loss := l;
                 epoch := ep; message := msg |} ] |})
  | Raise ex => (Raise ex, self)
  end.
Proof.
  unfold update_history, bind, get. rewrite predict_run, error_run, loss_run.
  destruct (Py.pow2 _); reflexivity.
Qed.

Ltac no_new_record :=
  exists []; rewrite app_nil_r;
  split; [reflexivity|]; split; [simpl; lia | constructor].

Lemma after_call_history (c : call) (self : LinearModel) :
  exists new : list TrainingRecord,
    history (after_call c self) = history self ++ new /\
    (List.length new <= if is_update c then 1 else 0)%nat /\
    Forall record_consistent new.
Proof.
  destruct c as [x|x y|x y|x y|xs ys|ms bs|x y ep msg|];
    unfold after_call, state_after.
  - no_new_record.
  - no_new_record.
  - no_new_record.
  - rewrite loss_run. no_new_record.
  - rewrite rmse_run. no_new_record.
  - no_new_record.
  - rewrite update_history_run.
    destruct (Py.pow2 _) as [l|ex] eqn:E; simpl snd.
    + eexists. split; [reflexivity|]. split; [simpl; lia|].
      constructor; [|constructor].
      unfold record_consistent; simpl.
      split; [reflexivity|]. split; [reflexivity|].
      unfold value_of. rewrite loss_run. exact E.
    + no_new_record.
  - no_new_record.
Qed.

Lemma after_call_params (c : call) (self : LinearModel) :
  is_step c = false ->
  m (after_call c self) = m self /\ b (after_call c self) = b self.
Proof.
  destruct c as [x|x y|x y|x y|xs ys|ms bs|x y ep msg|];
    unfold after_call, state_after; intros Hc; try discriminate Hc.
  - split; reflexivity.
  - split; reflexivity.
  - split; reflexivity.
  - rewrite loss_run. split; reflexivity.
  - rewrite rmse_run. split; reflexivity.
  - rewrite update_history_run. destruct (Py.pow2 _); split; reflexivity.
  - split; reflexivity.
Qed.

(** X1.  Whatever sequence of calls is made on a model, returning or
    raising, the history afterwards is the history before followed by new
    records, at most one for each [update_history] of the sequence: no call
    removes, reorders or rewrites a record. *)
Theorem history_append_only (cs : list call) (self : LinearModel) :
  exists new : list TrainingRecord,
    history (after_calls cs self) = history self ++ new /\
    (List.length new <= List.length (filter is_update cs))%nat.
Proof.
  revert self. induction cs as [|c cs IH]; intros self.
  - exists []. rewrite app_nil_r. split; [reflexivity | simpl; lia].
  - simpl. destruct (IH (after_call c self)) as (new2 & H2 & L2).
    destruct (after_call_history c self) as (new1 & H1 & L1 & _).
    exists (new1 ++ new2). rewrite H2, H1, app_assoc.
    split; [reflexivity|]. rewrite length_app.
    destruct (is_update c); simpl in *; lia.
Qed.

(** X2.  A model as the constructor makes it, after any sequence of calls,
    holds only records in which [prediction = m * x + b] and [error =
    prediction - y] for the recorded slope, intercept and observation, and
    the loss is what [loss(x, y)] returns for them, also when steps were
    made between the records. *)
Theorem history_records_consistent (rng : Type)
    (random_random : rng -> float * rng) (m0 b0 : option float) (g : rng)
    (cs : list call) :
  Forall record_consistent
    (history (after_calls cs (fst (__init__ rng random_random m0 b0 g)))).
Proof.
  assert (Hgen : forall cs self, Forall record_consistent (history self) ->
            Forall record_consistent (history (after_calls cs self))).
  { clear. induction cs as [|c cs IH]; intros self H; [exact H|].
    simpl. apply IH.
    destruct (after_call_history c self) as (new & -> & _ & Hn).
    apply Forall_app. split; assumption. }
  apply Hgen. unfold __init__.
  destruct (or_random rng random_random m0 g) as [m' g1].
  destruct (or_random rng random_random b0 g1) as [b' g2].
  constructor.
Qed.

(** X3.  Only [step] changes the slope and the intercept: after a sequence
    of calls without a [step] both are what they were, also after calls
    that raised. *)
Theorem params_change_only_by_step (cs : list call) (self : LinearModel) :
  forallb (fun c => negb (is_step c)) cs = true ->
  m (after_calls cs self) = m self /\ b (after_calls cs self) = b self.
Proof.
  revert self. induction cs as [|c cs IH]; intros self H; [split; reflexivity|].
  simpl in H. apply andb_true_iff in H. destruct H as [Hc Hcs].
  apply negb_true_iff in Hc. simpl.
  destruct (IH (after_call c self) Hcs) as [Hm Hb].
  destruct (after_call_params c self Hc) as [Hm' Hb'].
  split; congruence.
Qed.

Lemma params_change_only_by_step_witness :
  m (after_calls [CallLoss 1e200 0; CallUpdateHistory 3 10 0 None;
                  CallRmse [] []] two_one) = 2 /\
  b (after_calls [CallLoss 1e200 0; CallUpdateHistory 3 10 0 None;
                  CallRmse [] []] two_one) = 1.
Proof.
  apply (params_change_only_by_step
           [CallLoss 1e200 0; CallUpdateHistory 3 10 0 None; CallRmse [] []]
           two_one).
  reflexivity.
Defined.

(** ** The sign of what rmse returns *)

Lemma sqrt_core_nonneg (mx : positive) (ex : Z) :
  (0 <= fst (fst (SFsqrt_core_binary prec emax (Z.pos mx) ex)))%Z.
Proof.
  unfold SFsqrt_core_binary.
  set (m' := match _ with 0%Z => Z.pos mx | Z.pos _ => _ | Z.neg _ => 0%Z end).
  pose proof (Z.sqrtrem_sqrt m') as Hs.
  destruct (Z.sqrtrem m') as [q r]. simpl in *. subst q. apply Z.sqrt_nonneg.
Qed.

Lemma sqrt_not_negative (x : float) :
  not_negative x = true -> not_negative (sqrt x) = true.
Proof.
  rewrite !not_negative_sf, sqrt_spec.
  destruct (Prim2SF x) as [[]|[]| |[] mx ex]; simpl; try reflexivity;
    try discriminate.
  intros _. unfold SF64sqrt, SFsqrt.
  pose proof (sqrt_core_nonneg mx ex) as Hq.
  destruct (SFsqrt_core_binary prec emax (Z.pos mx) ex) as [[mz ez] lz].
  simpl in Hq. apply sf_signed_not_negative, binary_round_aux_signed, Hq.
Qed.

Lemma div_core_nonneg (m1 m2 : positive) (e1 e2 : Z) :
  (0 <= fst (fst (SFdiv_core_binary prec emax (Z.pos m1) e1 (Z.pos m2) e2)))%Z.
Proof.
  unfold SFdiv_core_binary.
  set (m' := match _ with 0%Z => Z.pos m1 | Z.pos _ => _ | Z.neg _ => 0%Z end).
  assert (Hm : (0 <= m')%Z).
  { unfold m'. destruct (_ - _ - _)%Z; try lia.
    apply Z.shiftl_nonneg. lia. }
  assert (Hq : fst (Z.div_eucl m' (Z.pos m2)) = (m' / Z.pos m2)%Z)
    by (unfold Z.div; destruct (Z.div_eucl m' (Z.pos m2)); reflexivity).
  destruct (Z.div_eucl m' (Z.pos m2)) as [q r]. simpl in *. subst q.
  apply Z.div_pos; lia.
Qed.

Lemma div_not_negative (a d : float) :
  not_negative a = true -> sf_signed false (Prim2SF d) ->
  not_negative (a / d) = true.
Proof.
  rewrite !not_negative_sf, div_spec.
  destruct (Prim2SF a) as [[]|[]| |[] ma ea];
    destruct (Prim2SF d) as [[]|[]| |[] md ed]; simpl;
    try reflexivity; try discriminate; try contradiction.
  intros _ _. unfold SF64div, SFdiv.
  pose proof (div_core_nonneg ma md ea ed) as Hq.
  destruct (SFdiv_core_binary prec emax (Z.pos ma) ea (Z.pos md) ed)
    as [[mz ez] lz].
  simpl in Hq. apply sf_signed_not_negative, binary_round_aux_signed, Hq.
Qed.

Lemma binary_normalize_signed (n e : Z) :
  (0 <= n)%Z -> sf_signed false (binary_normalize prec emax n e false).
Proof.
  intros Hn. destruct n as [|p|p]; simpl; [reflexivity| |lia].
  apply binary_round_signed.
Qed.

Lemma SFldexp_signed (f : spec_float) (e : Z) :
  sf_signed false f -> sf_signed false (SFldexp prec emax f e).
Proof.
  destruct f as [s|s| |s mf ef]; simpl; auto.
  intros ->. apply binary_round_signed.
Qed.

Lemma float_of_int_signed (n : Z) :
  (0 <= n)%Z -> sf_signed false (Prim2SF (Py.float_of_int n)).
Proof.
  intros Hn. unfold Py.float_of_int.
  pose proof (binary_normalize_signed n 0 Hn) as Hs.
  destruct (binary_normalize prec emax n 0 false) as [s|s| |s mf ef];
    simpl in Hs; try contradiction; subst; try reflexivity.
  unfold SF2Prim. rewrite Z_ldexp_spec, of_uint63_spec.
  apply SFldexp_signed, binary_normalize_signed.
  apply Uint63.to_Z_bounded.
Qed.

Lemma losses_not_negative (self : LinearModel) (l : list (float * float))
    (ls : list float) :
  all_ok (map (fun xy => value_of (loss (fst xy) (snd xy)) self) l) = Ok ls ->
  Forall (fun v => not_negative v = true) ls.
Proof.
  intros E. apply all_ok_Ok in E.
  apply Forall_forall. intros v Hv.
  assert (Hin : In (Ok v) (map (@Ok float) ls)) by (apply in_map; exact Hv).
  rewrite <- E in Hin. apply in_map_iff in Hin.
  destruct Hin as [[x y] [Hxy _]].
  unfold value_of in Hxy. rewrite loss_run in Hxy. simpl in Hxy.
  apply (pow2_Ok_not_negative _ _ Hxy).
Qed.

(** X4.  A value [rmse] returns is never below zero: it is zero, positive,
    [inf] or NaN, whatever the model and the sequences are. *)
Theorem rmse_not_negative (self : LinearModel) (xs ys : list float) (v : float) :
  value_of (rmse xs ys) self = Ok v -> (v <? 0) = false.
Proof.
  unfold value_of. rewrite rmse_run. simpl fst.
  destruct (all_ok _) as [ls|e] eqn:E; [|discriminate].
  destruct xs as [|x0 xs]; [discriminate|].
  unfold Py.truediv_int. intros [= <-].
  apply negb_true_iff. fold (not_negative (sqrt (Py.sum ls) /
    Py.float_of_int (Z.of_nat (List.length (x0 :: xs))))).
  apply div_not_negative.
  - apply sqrt_not_negative, sum_not_negative.
    apply (losses_not_negative self _ _ E).
  - apply float_of_int_signed. lia.
Qed.

Lemma rmse_not_negative_witness : (2 <? 0) = false.
Proof.
  apply (rmse_not_negative two_one [1] [1; 2] 2). reflexivity.
Defined.

(** ** Zero error, opposite errors, the prediction at zero *)

Lemma is_finite_sf (f : float) :
  is_finite f = match Prim2SF f with
                | S754_zero _ | S754_finite _ _ _ => true
                | _ => false
                end.
Proof.
  unfold is_finite. rewrite is_nan_sf, is_infinity_sf.
  destruct (Prim2SF f); reflexivity.
Qed.

Lemma sub_diag_finite (p : float) : is_finite p = true -> p - p = 0.
Proof.
  rewrite is_finite_sf. intros Hf. apply Prim2SF_inj. rewrite sub_spec.
  change (Prim2SF 0) with (S754_zero false).
  destruct (Prim2SF p) as [[]|[]| |s mp ep]; try discriminate Hf;
    try reflexivity.
  unfold SF64sub, SFsub. rewrite Z.sub_diag. reflexivity.
Qed.

(** X5.  When the prediction for [x] is finite and the observed [y] is that
    prediction, the error is [0.0], the loss is [0.0] and the gradient is
    [(x * 0.0, 0.0)]; nothing is raised. *)
Theorem exact_prediction_has_zero_loss (self : LinearModel) (x p : float) :
  value_of (predict x) self = Ok p -> is_finite p = true ->
  value_of (error x p) self = Ok 0 /\
  value_of (loss x p) self = Ok 0 /\
  value_of (gradient x p) self = Ok (x * 0, 0).
Proof.
  unfold value_of. rewrite predict_run, error_run, loss_run. simpl fst.
  intros [= <-] Hf.
  unfold gradient, bind, ret; simpl fst.
  rewrite (sub_diag_finite _ Hf). repeat split.
Qed.

Lemma exact_prediction_has_zero_loss_witness :
  value_of (error 3 7) two_one = Ok 0 /\
  value_of (loss 3 7) two_one = Ok 0 /\
  value_of (gradient 3 7) two_one = Ok (3 * 0, 0).
Proof.
  apply (exact_prediction_has_zero_loss two_one 3 7); reflexivity.
Defined.

(** X6.  Two observations whose errors are opposite floats have the same
    loss outcome: the same value, or OverflowError for both. *)
Theorem opposite_errors_same_loss (self : LinearModel) (x1 y1 x2 y2 e : float) :
  value_of (error x1 y1) self = Ok e ->
  value_of (error x2 y2) self = Ok (- e) ->
  value_of (loss x1 y1) self = value_of (loss x2 y2) self.
Proof.
  unfold value_of. rewrite !error_run, !loss_run. simpl fst.
  intros [= ->] [= ->]. symmetry. apply pow2_opp.
Qed.

Lemma opposite_errors_same_loss_witness :
  value_of (loss 3 10) two_one = value_of (loss 3 4) two_one.
Proof.
  apply (opposite_errors_same_loss two_one 3 10 3 4 (-3)); reflexivity.
Defined.

(** X7.  With a finite slope and an intercept that is not zero,
    [predict(0.0)] returns the intercept itself (also an infinite or NaN
    intercept). *)
Theorem predict_at_zero_is_intercept (self : LinearModel) :
  is_finite (m self) = true -> (b self =? 0) = false ->
  value_of (predict 0) self = Ok (b self).
Proof.
  unfold value_of. rewrite predict_run. simpl fst.
  rewrite is_finite_sf, eqb_spec. change (Prim2SF 0) with (S754_zero false).
  intros Hm Hb. f_equal. apply Prim2SF_inj. rewrite add_spec, mul_spec.
  change (Prim2SF 0) with (S754_zero false).
  destruct (Prim2SF (m self)) as [sm|sm| |sm mm em]; try discriminate Hm;
    destruct (Prim2SF (b self)) as [sb|[]| |sb mb eb];
    try discriminate Hb; reflexivity.
Qed.

Lemma predict_at_zero_is_intercept_witness :
  value_of (predict 0) two_one = Ok 1.
Proof.
  apply (predict_at_zero_is_intercept two_one); reflexivity.
Defined.

(** X8.  With an infinite slope, [predict(0.0)] is NaN whatever the
    intercept is, and [error(0.0, y)] and [loss(0.0, y)] return NaN for every
    [y] without raising. *)
Theorem infinite_slope_gives_nan_at_zero (self : LinearModel) (y : float) :
  is_infinity (m self) = true ->
  value_of (predict 0) self = Ok nan /\
  value_of (error 0 y) self = Ok nan /\
  value_of (loss 0 y) self = Ok nan.
Proof.
  unfold value_of. rewrite predict_run, error_run, loss_run. simpl fst.
  rewrite is_infinity_sf. intros Hm.
  assert (Hp : m self * 0 + b self = nan).
  { apply Prim2SF_inj. rewrite add_spec, mul_spec.
    change (Prim2SF 0) with (S754_zero false).
    destruct (Prim2SF (m self)); try discriminate Hm. reflexivity. }
  rewrite Hp.
  assert (He : nan - y = nan).
  { apply Prim2SF_inj. rewrite sub_spec. reflexivity. }
  rewrite He. repeat split.
Qed.

Lemma infinite_slope_gives_nan_at_zero_witness :
  value_of (predict 0) exploded = Ok nan /\
  value_of (error 0 5) exploded = Ok nan /\
  value_of (loss 0 5) exploded = Ok nan.
Proof.
  apply (infinite_slope_gives_nan_at_zero exploded 5). reflexivity.
Defined.

(** ** Slopes and intercepts that left the finite range *)

Lemma add_nan_l (x a : float) : is_nan x = true -> is_nan (x + a) = true.
Proof.
  rewrite !is_nan_sf, add_spec.
  destruct (Prim2SF x); try discriminate. reflexivity.
Qed.

Lemma add_not_finite_l (x a : float) :
  is_finite x = false -> is_finite (x + a) = false.
Proof.
  rewrite !is_finite_sf, add_spec.
  destruct (Prim2SF x) as [sx|[]| |sx mx ex]; try discriminate;
    destruct (Prim2SF a) as [sa|[]| |sa ma ea]; reflexivity.
Qed.

Lemma after_call_step (ms bs : float) (self : LinearModel) :
  m (after_call (CallStep ms bs) self) = m self + ms /\
  b (after_call (CallStep ms bs) self) = b self + bs.
Proof. split; reflexivity. Qed.

Lemma after_call_kept (P : float -> Prop) :
  (forall x a, P x -> P (x + a)) ->
  forall c self,
    (P (m self) -> P (m (after_call c self))) /\
    (P (b self) -> P (b (after_call c self))).
Proof.
  intros HP c self. destruct (is_step c) eqn:Ec.
  - destruct c; try discriminate Ec.
    destruct (after_call_step m_step b_step self) as [-> ->].
    split; apply HP.
  - destruct (after_call_params c self Ec) as [-> ->]. split; auto.
Qed.

Lemma after_calls_kept (P : float -> Prop) :
  (forall x a, P x -> P (x + a)) ->
  forall cs self,
    (P (m self) -> P (m (after_calls cs self))) /\
    (P (b self) -> P (b (after_calls cs self))).
Proof.
  intros HP. induction cs as [|c cs IH]; intros self; [split; auto|].
  simpl. destruct (IH (after_call c self)) as [IHm IHb].
  destruct (after_call_kept P HP c self) as [Hm Hb].
  split; auto.
Qed.

(** X9.  A slope that is NaN stays NaN under every sequence of calls, and
    so does an intercept: no step brings it back. *)
Theorem nan_parameters_stay_nan (cs : list call) (self : LinearModel) :
  (is_nan (m self) = true -> is_nan (m (after_calls cs self)) = true) /\
  (is_nan (b self) = true -> is_nan (b (after_calls cs self)) = true).
Proof.
  apply (after_calls_kept (fun f => is_nan f = true)).
  intros x a. apply add_nan_l.
Qed.

(** X10.  A slope that is infinite or NaN is never finite again, whatever
    calls follow, and so for the intercept: an overflow of [step] is not
    undone by later steps. *)
Theorem overflowed_parameters_stay_not_finite (cs : list call)
    (self : LinearModel) :
  (is_finite (m self) = false -> is_finite (m (after_calls cs self)) = false) /\
  (is_finite (b self) = false -> is_finite (b (after_calls cs self)) = false).
Proof.
  apply (after_calls_kept (fun f => is_finite f = false)).
  intros x a. apply add_not_finite_l.
Qed.

(** X11.  A sequence of steps adds the slope steps to the slope one after
    the other from the left, and the intercept steps to the intercept, and
    leaves the history as it was. *)
Theorem steps_accumulate (l : list (float * float)) (self : LinearModel) :
  after_calls (map (fun ab => CallStep (fst ab) (snd ab)) l) self =
  {| m := fold_left add (map fst l) (m self);
     b := fold_left add (map snd l) (b self);
     history := history self |}.
Proof.
  revert self. induction l as [|[a1 b1] l IH]; intros self.
  - destruct self; reflexivity.
  - simpl. rewrite IH. reflexivity.
Qed.

(** ** Draws of the constructor *)

(** X12.  The constructor asks the generator once for each of slope and
    intercept that is absent or falsy, and not at all for one that is
    supplied and truthy: with both supplied the generator is left as it
    was. *)
Theorem init_draws (rng : Type) (random_random : rng -> float * rng)
    (m0 b0 : option float) (g : rng) :
  snd (__init__ rng random_random m0 b0 g) =
  after_draws random_random
    (Nat.b2n (needs_draw m0) + Nat.b2n (needs_draw b0)) g.
Proof.
  unfold __init__, or_random, needs_draw, after_draws.
  destruct (Py.falsy_to_none m0) as [fm|]; destruct (Py.falsy_to_none b0) as [fb|];
    simpl.
  - reflexivity.
  - destruct (random_random g). reflexivity.
  - destruct (random_random g) as [r1 g1]. reflexivity.
  - destruct (random_random g) as [r1 g1]. simpl.
    destruct (random_random g1). reflexivity.
Qed.

(** ** rmse of one observation *)

Lemma zero_add_sq (e : float) : 0 + e * e = e * e.
Proof.
  apply Prim2SF_inj. rewrite add_spec, mul_spec.
  change (Prim2SF 0) with (S754_zero false).
  destruct (Prim2SF e) as [[]|[]| |s me ee]; try reflexivity.
  unfold SF64mul, SFmul.
  replace (xorb s s) with false by (destruct s; reflexivity).
  pose proof (binary_round_aux_signed false (Z.pos (me * me)) (ee + ee)
                loc_Exact ltac:(lia)) as Hs.
  destruct (binary_round_aux _ _ _ _ _ _) as [|?| |]; simpl in Hs;
    try contradiction; subst; reflexivity.
Qed.

(** X13.  For one observation, [rmse([x], [y])] has the outcome of
    [loss(x, y)]: it returns [sqrt(l) / 1.0] when the loss is [l], and
    raises what [loss(x, y)] raises. *)
Theorem rmse_single_point (self : LinearModel) (x y : float) :
  value_of (rmse [x] [y]) self =
  match value_of (loss x y) self with
  | Ok l => Ok (sqrt l / 1)
  | Raise e => Raise e
  end.
Proof.
  unfold value_of. rewrite rmse_run. simpl combine. simpl map.
  unfold value_of. rewrite loss_run. simpl fst. simpl all_ok.
  destruct (Py.pow2 _) as [l|ex] eqn:E; [|reflexivity].
  rewrite (pow2_Ok_sq _ _ E).
  unfold Py.sum. simpl fold_left. rewrite zero_add_sq. reflexivity.
Qed.
